(** * trio-websocket: the per-connection engine of [trio_websocket/__init__.py]

    A shallow embedding of [CloseReason], [WebSocketConnection] and
    [WebSocketClient.__init__].  The framing engine (wsproto) and the byte
    stream (trio) are external collaborators: they appear as interfaces
    ([WSConnection], [SocketStream]) whose operations the connection calls.

    Coroutines are cut at their [await] on a signal, on the message channel
    or on [receive_some]: a function runs one segment of the coroutine and
    ends in [Return], [Raise] or [Await]; the code after the [await] is the
    matching [_resume] function.  An [await] on the transport's [send_all]
    and [aclose], on a blocking [put] and on [trio.sleep(0)] is followed
    through to its completion. *)

From Stdlib Require Import ZArith List String Bool Lia.
From Stdlib Require Import Strings.Byte.
Import ListNotations.

Open Scope string_scope.
Open Scope list_scope.

(** ** Python values used by the module *)

Definition bytes := list byte.

(** A [str] or [bytes] payload ([send_message], [ping], a queued message). *)
Inductive pydata :=
| PyBytes (b : bytes)
| PyStr (s : string).

(** References to [CloseReason] instances in the object store. *)
Definition addr := nat.

(** Exceptions raised or caught in the module, and [struct.error], which
    the engine raises for a close code it cannot encode.
    [ConnectionClosed] carries the value of its [reason] argument, a
    reference or [None]. *)
Inductive exn :=
| ValueError
| AttributeError (attr : string)
| TypeError (msg : string)
| ConnectionClosed (reason : option addr)
| WouldBlock
| BrokenStreamError
| ClosedResourceError
| PyException (msg : string)
| struct_error (msg : string).

Inductive pyresult (A : Type) :=
| Ok (a : A)
| Err (e : exn).
Arguments Ok {A} a.
Arguments Err {A} e.

Definition pybind {A B} (m : pyresult A) (k : A -> pyresult B) : pyresult B :=
  match m with
  | Ok a => k a
  | Err e => Err e
  end.

(** ** IntEnum: the interface of [wsframeproto.CloseReason] *)

Module IntEnum.

(** Members in definition order, [(name, value)]. *)
Definition t := list (string * Z).

(** [E(value)]: the first member with that value, else [ValueError]. *)
Fixpoint call (e : t) (value : Z) : pyresult (string * Z) :=
  match e with
  | [] => Err ValueError
  | (n, v) :: rest => if Z.eqb v value then Ok (n, v) else call rest value
  end.

(** [E.NAME]: the member of that name, else [AttributeError]. *)
Fixpoint getattr (e : t) (attr : string) : pyresult (string * Z) :=
  match e with
  | [] => Err (AttributeError attr)
  | (n, v) :: rest =>
      if String.eqb n attr then Ok (n, v) else getattr rest attr
  end.

Definition name (m : string * Z) : string := fst m.
Definition value (m : string * Z) : Z := snd m.

(** The canonical name of a value, when the enumeration defines it. *)
Definition name_of (e : t) (value : Z) : option string :=
  match call e value with
  | Ok m => Some (name m)
  | Err _ => None
  end.

Definition values_within (lo hi : Z) (e : t) : bool :=
  forallb (fun m => Z.leb lo (snd m) && Z.leb (snd m) hi) e.

End IntEnum.

(** Modelled from the spec: the framing engine's close-code enumeration
    ([wsproto.frame_protocol.CloseReason]) is not part of this repository.
    The spec says it gives canonical names to the codes that RFC 6455
    defines, all within 1000-1015, with 1000 named NORMAL_CLOSURE and 1006
    the abnormal closure; the members below are RFC 6455's. *)
Definition wsproto_CloseReason : IntEnum.t :=
  [ ("NORMAL_CLOSURE", 1000%Z);
    ("GOING_AWAY", 1001%Z);
    ("PROTOCOL_ERROR", 1002%Z);
    ("UNSUPPORTED_DATA", 1003%Z);
    ("NO_STATUS_RCVD", 1005%Z);
    ("ABNORMAL_CLOSURE", 1006%Z);
    ("INVALID_FRAME_PAYLOAD_DATA", 1007%Z);
    ("POLICY_VIOLATION", 1008%Z);
    ("MESSAGE_TOO_BIG", 1009%Z);
    ("MANDATORY_EXT", 1010%Z);
    ("INTERNAL_ERROR", 1011%Z);
    ("SERVICE_RESTART", 1012%Z);
    ("TRY_AGAIN_LATER", 1013%Z);
    ("TLS_HANDSHAKE_FAILED", 1015%Z) ].

(** ** class CloseReason *)

Module CloseReason.

Record t := mk {
  _code : Z;
  _name : string;
  _reason : option string
}.

(** The [except ValueError] branch of the constructor. *)
Definition range_name (code : Z) : string :=
  if Z.leb 1000 code && Z.leb code 2999 then "RFC_RESERVED"
  else if Z.leb 3000 code && Z.leb code 3999 then "IANA_RESERVED"
  else if Z.leb 4000 code && Z.leb code 4999 then "PRIVATE_RESERVED"
  else "INVALID_CODE".

(** [CloseReason.__init__(code, reason)], over the engine's enumeration:
    [try: name = wsframeproto.CloseReason(code).name  except ValueError: ...] *)
Definition __init__ (wsframeproto_CloseReason : IntEnum.t)
    (code : Z) (reason : option string) : pyresult t :=
  pybind
    (match IntEnum.call wsframeproto_CloseReason code with
     | Ok m => Ok (IntEnum.name m)
     | Err ValueError => Ok (range_name code)
     | Err e => Err e
     end)
    (fun name => Ok {| _code := code; _name := name; _reason := reason |}).

Definition code (self : t) : Z := _code self.
Definition name (self : t) : string := _name self.
Definition reason (self : t) : option string := _reason self.

End CloseReason.

(** ** wsproto events *)

Module wsevents.

Inductive event :=
| ConnectionRequested
| ConnectionEstablished
| ConnectionClosed (code : Z) (reason : option string)
| BytesReceived (data : bytes) (message_finished : bool)
| TextReceived (data : string) (message_finished : bool)
| PingReceived (payload : bytes)
| PongReceived (payload : bytes)
| Other (repr : string).



End wsevents.


(** ** The external collaborators *)

(** The sans-I/O protocol object [wsconnection.WSConnection]. *)
Class WSConnection (W : Type) := {
  wsproto_client : W -> bool;
  wsproto_closed : W -> bool;
  wsproto_accept : wsevents.event -> W -> W;
  (** [close(code, reason)] can raise ([None] is a normal return): the
      code is packed as an unsigned 16-bit integer *)
  wsproto_close : Z -> option string -> W -> option exn * W;
  wsproto_ping : pydata -> W -> W;
  wsproto_send_data : pydata -> W -> W;
  wsproto_receive_bytes : bytes -> W -> W;
  (** one step of the generator [events()]: the next event, if any *)
  wsproto_events : W -> option wsevents.event * W;
  wsproto_bytes_to_send : W -> bytes * W
}.

(** The duplex byte stream; [None] is a normal return. *)
Class SocketStream (T : Type) := {
  stream_receive_some : Z -> T -> pyresult bytes * T;
  stream_send_all : bytes -> T -> option exn * T;
  stream_aclose : T -> option exn * T
}.

(** ** trio.Queue(0): the zero-capacity message channel *)

Module Queue.

Inductive item :=
| Message (m : pydata)
| Exc (e : exn).

(** [get_wait]: the consumers suspended in [get]; [taken]: what the
    channel handed to consumers, oldest first. *)
Record t := mk {
  get_wait : nat;
  taken : list item
}.

Definition empty : t := mk 0 [].

(** [await q.put(x)], at its return: the item went to a suspended consumer,
    or, none being there, to the one whose arrival ended the wait. *)
Definition put (x : item) (q : t) : t :=
  mk (pred (get_wait q)) (taken q ++ [x]).

(** [q.put_nowait(x)]: hands [x] to a suspended consumer; with none, a
    queue of capacity 0 has no room and raises [WouldBlock]. *)
Definition put_nowait (x : item) (q : t) : pyresult t :=
  match get_wait q with
  | O => Err WouldBlock
  | S n => Ok (mk n (taken q ++ [x]))
  end.

(** [await q.get()], at its suspension. *)
Definition get (q : t) : t := mk (S (get_wait q)) (taken q).

End Queue.

Definition RECEIVE_BYTES : Z := 4096.

(** ** class WebSocketConnection *)

Section Connection.

Context {W Stream : Type}.
Context {engine : WSConnection W} {transport : SocketStream Stream}.

(** The module-level name [wsframeproto.CloseReason]. *)
Variable wsframeproto_CloseReason : IntEnum.t.

(** The attributes of the instance; a [trio.Event] is its flag.  [heap] is
    the store of the [CloseReason] objects created so far, and
    [_close_creason] the attribute that line 277 creates ([None] while the
    instance has no such attribute). *)
Record WebSocketConnection := mkConn {
  heap : list CloseReason.t;
  _closed : bool;
  _close_reason : option addr;
  _close_creason : option addr;
  _id : nat;
  _message_queue : Queue.t;
  _stream : Stream;
  _wsproto : W;
  _bytes_message : bytes;
  _str_message : string;
  _data_pending : bool;
  _data_sent : bool;
  _pong_received : bool;
  _reader_running : bool;
  _writer_running : bool
}.

Definition set_heap (v : list CloseReason.t) (self : WebSocketConnection) :=
  mkConn v (_closed self) (_close_reason self) (_close_creason self)
    (_id self) (_message_queue self) (_stream self) (_wsproto self)
    (_bytes_message self) (_str_message self) (_data_pending self)
    (_data_sent self) (_pong_received self) (_reader_running self)
    (_writer_running self).

Definition set_closed (v : bool) (self : WebSocketConnection) :=
  mkConn (heap self) v (_close_reason self) (_close_creason self) (_id self)
    (_message_queue self) (_stream self) (_wsproto self)
    (_bytes_message self) (_str_message self) (_data_pending self)
    (_data_sent self) (_pong_received self) (_reader_running self)
    (_writer_running self).

Definition set_close_reason (v : option addr) (self : WebSocketConnection) :=
  mkConn (heap self) (_closed self) v (_close_creason self) (_id self)
    (_message_queue self) (_stream self) (_wsproto self)
    (_bytes_message self) (_str_message self) (_data_pending self)
    (_data_sent self) (_pong_received self) (_reader_running self)
    (_writer_running self).

Definition set_close_creason (v : option addr) (self : WebSocketConnection) :=
  mkConn (heap self) (_closed self) (_close_reason self) v (_id self)
    (_message_queue self) (_stream self) (_wsproto self)
    (_bytes_message self) (_str_message self) (_data_pending self)
    (_data_sent self) (_pong_received self) (_reader_running self)
    (_writer_running self).

Definition set_message_queue (v : Queue.t) (self : WebSocketConnection) :=
  mkConn (heap self) (_closed self) (_close_reason self)
    (_close_creason self) (_id self) v (_stream self) (_wsproto self)
    (_bytes_message self) (_str_message self) (_data_pending self)
    (_data_sent self) (_pong_received self) (_reader_running self)
    (_writer_running self).

Definition set_stream (v : Stream) (self : WebSocketConnection) :=
  mkConn (heap self) (_closed self) (_close_reason self)
    (_close_creason self) (_id self) (_message_queue self) v (_wsproto self)
    (_bytes_message self) (_str_message self) (_data_pending self)
    (_data_sent self) (_pong_received self) (_reader_running self)
    (_writer_running self).

Definition set_wsproto (v : W) (self : WebSocketConnection) :=
  mkConn (heap self) (_closed self) (_close_reason self)
    (_close_creason self) (_id self) (_message_queue self) (_stream self) v
    (_bytes_message self) (_str_message self) (_data_pending self)
    (_data_sent self) (_pong_received self) (_reader_running self)
    (_writer_running self).

Definition set_bytes_message (v : bytes) (self : WebSocketConnection) :=
  mkConn (heap self) (_closed self) (_close_reason self)
    (_close_creason self) (_id self) (_message_queue self) (_stream self)
    (_wsproto self) v (_str_message self) (_data_pending self)
    (_data_sent self) (_pong_received self) (_reader_running self)
    (_writer_running self).

Definition set_str_message (v : string) (self : WebSocketConnection) :=
  mkConn (heap self) (_closed self) (_close_reason self)
    (_close_creason self) (_id self) (_message_queue self) (_stream self)
    (_wsproto self) (_bytes_message self) v (_data_pending self)
    (_data_sent self) (_pong_received self) (_reader_running self)
    (_writer_running self).

Definition set_data_pending (v : bool) (self : WebSocketConnection) :=
  mkConn (heap self) (_closed self) (_close_reason self)
    (_close_creason self) (_id self) (_message_queue self) (_stream self)
    (_wsproto self) (_bytes_message self) (_str_message self) v
    (_data_sent self) (_pong_received self) (_reader_running self)
    (_writer_running self).

Definition set_data_sent (v : bool) (self : WebSocketConnection) :=
  mkConn (heap self) (_closed self) (_close_reason self)
    (_close_creason self) (_id self) (_message_queue self) (_stream self)
    (_wsproto self) (_bytes_message self) (_str_message self)
    (_data_pending self) v (_pong_received self) (_reader_running self)
    (_writer_running self).

Definition set_pong_received (v : bool) (self : WebSocketConnection) :=
  mkConn (heap self) (_closed self) (_close_reason self)
    (_close_creason self) (_id self) (_message_queue self) (_stream self)
    (_wsproto self) (_bytes_message self) (_str_message self)
    (_data_pending self) (_data_sent self) v (_reader_running self)
    (_writer_running self).

Definition set_reader_running (v : bool) (self : WebSocketConnection) :=
  mkConn (heap self) (_closed self) (_close_reason self)
    (_close_creason self) (_id self) (_message_queue self) (_stream self)
    (_wsproto self) (_bytes_message self) (_str_message self)
    (_data_pending self) (_data_sent self) (_pong_received self) v
    (_writer_running self).

Definition set_writer_running (v : bool) (self : WebSocketConnection) :=
  mkConn (heap self) (_closed self) (_close_reason self)
    (_close_creason self) (_id self) (_message_queue self) (_stream self)
    (_wsproto self) (_bytes_message self) (_str_message self)
    (_data_pending self) (_data_sent self) (_pong_received self)
    (_reader_running self) v.

(** Where a coroutine is suspended. *)
Inductive waitpoint :=
| OnClosed            (* await self._closed.wait() *)
| OnMessageQueueGet   (* await self._message_queue.get() *)
| OnPongReceived      (* await self._pong_received.wait() *)
| OnDataSent          (* await self._data_sent.wait() *)
| OnDataPending       (* await self._data_pending.wait() *)
| OnReceiveSome.      (* await self._stream.receive_some(...) *)

(** The end of one segment of a coroutine, with the instance as it then is.
    [Await w self]: the coroutine stands at the [await] of [w]; it goes on
    with its [_resume] once [w] holds (a wait on a signal that is already
    raised is still a checkpoint). *)
Inductive result (A : Type) :=
| Return (a : A) (self : WebSocketConnection)
| Raise (e : exn) (self : WebSocketConnection)
| Await (w : waitpoint) (self : WebSocketConnection).
Arguments Return {A} a self.
Arguments Raise {A} e self.
Arguments Await {A} w self.

(** Truth value of [self._close_reason]: [None] is false; a [CloseReason]
    instance is true, the class defining neither [__bool__] nor [__len__]. *)
Definition truthy (r : option addr) : bool :=
  match r with
  | None => false
  | Some _ => true
  end.

(** A new object in the store; its reference is its position. *)
Definition new_object (obj : CloseReason.t) (self : WebSocketConnection)
    : addr * WebSocketConnection :=
  (List.length (heap self), set_heap (heap self ++ [obj]) self).

Definition deref (self : WebSocketConnection) (r : option addr)
    : option CloseReason.t :=
  match r with
  | None => None
  | Some a => nth_error (heap self) a
  end.

(** [WebSocketConnection.__init__(stream, wsproto)]; [CONNECTION_ID], the
    class-wide [itertools.count()], is passed in and handed back. *)
Definition __init__ (stream : Stream) (wsproto : W) (CONNECTION_ID : nat)
    : WebSocketConnection * nat :=
  let self :=
    {| heap := [];
       _closed := false;
       _close_reason := None;
       _close_creason := None;
       _id := CONNECTION_ID;
       _message_queue := Queue.empty;
       _stream := stream;
       _wsproto := wsproto;
       _bytes_message := [];
       _str_message := "";
       _data_pending := false;
       _data_sent := false;
       _pong_received := false;
       _reader_running := true;
       _writer_running := true |} in
  (if wsproto_client (_wsproto self)
   then set_data_pending true self
   else self,
   Datatypes.S CONNECTION_ID).

Definition closed (self : WebSocketConnection) : option addr :=
  _close_reason self.

Definition is_client (self : WebSocketConnection) : bool :=
  wsproto_client (_wsproto self).

Definition is_server (self : WebSocketConnection) : bool :=
  negb (wsproto_client (_wsproto self)).

(** *** The application API *)

Definition close (code : Z) (reason : option string)
    (self : WebSocketConnection) : result unit :=
  if truthy (_close_reason self) then
    Raise (ConnectionClosed (_close_reason self)) self
  else
    let '(raised, wsproto) := wsproto_close code reason (_wsproto self) in
    let self := set_wsproto wsproto self in
    match raised with
    | Some e => Raise e self
    | None =>
        match CloseReason.__init__ wsframeproto_CloseReason code reason with
        | Err e => Raise e self
        | Ok obj =>
            let '(r, self) := new_object obj self in
            let self := set_close_reason (Some r) self in
            let self := set_data_pending true self in
            Await OnClosed self
        end
    end.

Definition close_resume (self : WebSocketConnection) : result unit :=
  Return tt self.

Definition get_message (self : WebSocketConnection) : result pydata :=
  if truthy (_close_reason self) then
    Raise (ConnectionClosed (_close_reason self)) self
  else
    Await OnMessageQueueGet
      (set_message_queue (Queue.get (_message_queue self)) self).

(** After the [await]: [next_] is what the channel handed over. *)
Definition get_message_resume (next_ : Queue.item)
    (self : WebSocketConnection) : result pydata :=
  match next_ with
  | Queue.Exc e => Raise e self
  | Queue.Message m => Return m self
  end.

Definition ping (payload : pydata) (self : WebSocketConnection)
    : result unit :=
  if truthy (_close_reason self) then
    Raise (ConnectionClosed (_close_reason self)) self
  else
    let self := set_wsproto (wsproto_ping payload (_wsproto self)) self in
    let self := set_data_pending true self in
    Await OnPongReceived self.

Definition ping_resume (self : WebSocketConnection) : result unit :=
  Return tt (set_pong_received false self).

Definition send_message (message : pydata) (self : WebSocketConnection)
    : result unit :=
  if truthy (_close_reason self) then
    Raise (ConnectionClosed (_close_reason self)) self
  else
    let self :=
      set_wsproto (wsproto_send_data message (_wsproto self)) self in
    let self := set_data_pending true self in
    Await OnDataSent self.

Definition send_message_resume (self : WebSocketConnection) : result unit :=
  Return tt (set_data_sent false self).

(** *** Teardown helpers *)

(** The loop of [_close_message_queue]: [put_nowait] then [trio.sleep(0)],
    until [WouldBlock].  [fuel] bounds the iterations; [None] when it runs
    out. *)
Fixpoint _close_message_queue_loop (fuel : nat) (exc : exn)
    (self : WebSocketConnection) : option (result unit) :=
  match fuel with
  | O => None
  | Datatypes.S fuel' =>
      match Queue.put_nowait (Queue.Exc exc) (_message_queue self) with
      | Ok q => _close_message_queue_loop fuel' exc (set_message_queue q self)
      | Err WouldBlock => Some (Return tt self)
      | Err e => Some (Raise e self)
      end
  end.

Definition _close_message_queue (fuel : nat) (self : WebSocketConnection)
    : option (result unit) :=
  let exc := ConnectionClosed (_close_reason self) in
  _close_message_queue_loop fuel exc self.

Definition _close_stream (self : WebSocketConnection) : result unit :=
  let self := set_reader_running false self in
  let self := set_writer_running false self in
  let self := set_data_pending true self in
  let '(raised, stream) := stream_aclose (_stream self) in
  let self := set_stream stream self in
  match raised with
  | None => Return tt (set_closed true self)
  | Some BrokenStreamError => Return tt (set_closed true self)
  | Some e => Raise e self
  end.

(** *** Event dispatch *)

Definition _handle_event (fuel : nat) (event : wsevents.event)
    (self : WebSocketConnection) : option (result unit) :=
  match event with
  | wsevents.ConnectionRequested =>
      let self := set_wsproto (wsproto_accept event (_wsproto self)) self in
      Some (Return tt (set_data_pending true self))
  | wsevents.ConnectionEstablished =>
      Some (Return tt self)
  | wsevents.ConnectionClosed code reason =>
      let assigned :=
        match _close_reason self with
        | None =>
            pybind (CloseReason.__init__ wsframeproto_CloseReason code reason)
              (fun obj =>
                 let '(r, self) := new_object obj self in
                 Ok (set_close_reason (Some r) self))
        | Some _ => Ok self
        end in
      match assigned with
      | Err e => Some (Raise e self)
      | Ok self =>
          match _close_message_queue fuel self with
          | Some (Return _ self) =>
              let self := set_writer_running false self in
              Some (Return tt (set_data_pending true self))
          | other => other
          end
      end
  | wsevents.BytesReceived data message_finished =>
      let self := set_bytes_message (_bytes_message self ++ data) self in
      if message_finished then
        let q := Queue.put (Queue.Message (PyBytes (_bytes_message self)))
                   (_message_queue self) in
        let self := set_message_queue q self in
        Some (Return tt (set_bytes_message [] self))
      else Some (Return tt self)
  | wsevents.TextReceived data message_finished =>
      let self :=
        set_str_message (String.append (_str_message self) data) self in
      if message_finished then
        let q := Queue.put (Queue.Message (PyStr (_str_message self)))
                   (_message_queue self) in
        let self := set_message_queue q self in
        Some (Return tt (set_str_message "" self))
      else Some (Return tt self)
  | wsevents.PingReceived _ =>
      Some (Return tt (set_data_pending true self))
  | wsevents.PongReceived _ =>
      Some (Return tt (set_pong_received true self))
  | wsevents.Other repr =>
      Some (Raise
              (PyException (String.append "Unknown websocket event: " repr))
              self)
  end.


(** *** The reader task *)

(** The loop test of [_reader_task]. *)
Definition _reader_task (self : WebSocketConnection) : result unit :=
  if _reader_running self then Await OnReceiveSome self
  else Return tt self.

(** [for event in self._wsproto.events(): await self._handle_event(event)],
    drawing from the generator one event at a time. *)
Fixpoint _reader_task_events (fuel : nat) (self : WebSocketConnection)
    : option (result unit) :=
  match fuel with
  | O => None
  | Datatypes.S fuel' =>
      let '(next_, wsproto) := wsproto_events (_wsproto self) in
      let self := set_wsproto wsproto self in
      match next_ with
      | None => Some (Return tt self)
      | Some event =>
          match _handle_event fuel' event self with
          | Some (Return _ self) => _reader_task_events fuel' self
          | other => other
          end
      end
  end.

(** The record of an abnormal closure, lines 276-279. *)
Definition _reader_task_abnormal (self : WebSocketConnection)
    : pyresult WebSocketConnection :=
  if negb (wsproto_closed (_wsproto self)) then
    pybind (IntEnum.getattr wsframeproto_CloseReason "ABNORMAL_CLOSURE")
      (fun member =>
    pybind (CloseReason.__init__ wsframeproto_CloseReason
              (IntEnum.value member) (Some "TCP connection aborted"))
      (fun obj =>
         let '(r, self) := new_object obj self in
         Ok (set_close_creason (Some r) self)))
  else Ok self.

(** The loop body of [_reader_task], from the return of [receive_some] to
    the next loop test. *)
Definition _reader_task_resume (fuel : nat) (self : WebSocketConnection)
    : option (result unit) :=
  let '(received, stream) :=
    stream_receive_some RECEIVE_BYTES (_stream self) in
  let self := set_stream stream self in
  match received with
  | Err ClosedResourceError => Some (Return tt self)
  | Err e => Some (Raise e self)
  | Ok data =>
      if Nat.eqb (List.length data) 0 then
        match _reader_task_abnormal self with
        | Err e => Some (Raise e self)
        | Ok self => Some (_close_stream self)
        end
      else
        let self :=
          set_wsproto (wsproto_receive_bytes data (_wsproto self)) self in
        match _reader_task_events fuel self with
        | Some (Return _ self) => Some (_reader_task self)
        | other => other
        end
  end.

(** *** The writer task *)

(** After the loop, lines 308-312. *)
Definition _writer_task_exit (self : WebSocketConnection) : result unit :=
  if is_server self then _close_stream self
  else Return tt self.

(** The loop test of [_writer_task]. *)
Definition _writer_task (self : WebSocketConnection) : result unit :=
  if _writer_running self then Await OnDataPending self
  else _writer_task_exit self.

(** The loop body of [_writer_task], from the return of
    [self._data_pending.wait()] to the next loop test. *)
Definition _writer_task_resume (self : WebSocketConnection) : result unit :=
  let '(data, wsproto) := wsproto_bytes_to_send (_wsproto self) in
  let self := set_wsproto wsproto self in
  let '(raised, stream) :=
    if Nat.ltb 0 (List.length data)
    then stream_send_all data (_stream self)
    else (None, _stream self) in
  let self := set_stream stream self in
  match raised with
  | Some e => Raise e self
  | None =>
      let self := set_data_pending false self in
      let self := set_data_sent true self in
      _writer_task self
  end.

(** The instance a [result] ends with. *)
Definition state_of {A} (r : result A) : WebSocketConnection :=
  match r with
  | Return _ self => self
  | Raise _ self => self
  | Await _ self => self
  end.

End Connection.

Arguments WebSocketConnection W Stream : clear implicits.
Arguments result W Stream A : clear implicits.
Arguments Return {W Stream A} a self.
Arguments Raise {W Stream A} e self.
Arguments Await {W Stream A} w self.
Arguments state_of {W Stream A} r.

(** ** class WebSocketClient *)

Module ssl.

(** An [ssl.SSLContext]: the one [ssl.create_default_context()] builds, or
    one the caller built, told apart by its identity. *)
Inductive SSLContext :=
| default_context
| context (id : nat).

End ssl.

(** The arguments [use_ssl] can be bound to. *)
Inductive pyvalue :=
| VNone
| VBool (b : bool)
| VInt (i : Z)
| VStr (s : string)
| VBytes (b : bytes)
| VSSLContext (c : ssl.SSLContext).

(** [v == b] for a [bool] literal [b]: [bool] is a subclass of [int] and
    compares by value with it; the other classes here compare unequal. *)
Definition py_eq_bool (v : pyvalue) (b : bool) : bool :=
  match v with
  | VBool b' => Bool.eqb b' b
  | VInt i => Z.eqb i (if b then 1 else 0)
  | _ => false
  end.

Definition isinstance_bool (v : pyvalue) : bool :=
  match v with VBool _ => true | _ => false end.

Definition isinstance_SSLContext (v : pyvalue) : bool :=
  match v with VSSLContext _ => true | _ => false end.

Module WebSocketClient.

Record t := mk {
  _host : string;
  _port : Z;
  _resource : string;
  _ssl : option ssl.SSLContext
}.

Definition __init__ (host : string) (port : Z) (resource : string)
    (use_ssl : pyvalue) : pyresult t :=
  if py_eq_bool use_ssl true then
    Ok (mk host port resource (Some ssl.default_context))
  else if py_eq_bool use_ssl false then
    Ok (mk host port resource None)
  else
    match use_ssl with
    | VSSLContext c => Ok (mk host port resource (Some c))
    | _ =>
        Err (TypeError "`use_ssl` argument must be bool or ssl.SSLContext")
    end.

End WebSocketClient.

(** ** Stand-ins for the collaborators

    A framing engine and a byte stream that follow a script and record the
    calls made on them; the concrete inputs of the examples below. *)

Module Script.

Inductive call :=
| Accept (event : wsevents.event)
| Close (code : Z) (reason : option string)
| Ping (payload : pydata)
| SendData (message : pydata)
| ReceiveBytes (data : bytes).

Record engine := mkEngine {
  client : bool;
  closed : bool;
  calls : list call;
  events : list wsevents.event;
  outgoing : bytes
}.

Definition record (c : call) (w : engine) : engine :=
  mkEngine (client w) (closed w) (calls w ++ [c]) (events w) (outgoing w).

(** [close]: as wsproto does, which packs the code with
    [struct.pack("!H", code)], it raises [struct.error] for a code outside
    0-65535 and is then left as it was. *)
Definition close_frame (code : Z) (reason : option string) (w : engine)
    : option exn * engine :=
  if Z.leb 0 code && Z.leb code 65535
  then (None, record (Close code reason) w)
  else (Some (struct_error "'H' format requires 0 <= number <= 65535"), w).

Definition next_event (w : engine) : option wsevents.event * engine :=
  match events w with
  | [] => (None, w)
  | ev :: rest =>
      (Some ev, mkEngine (client w) (closed w) (calls w) rest (outgoing w))
  end.

Definition bytes_to_send (w : engine) : bytes * engine :=
  (outgoing w, mkEngine (client w) (closed w) (calls w) (events w) []).

Record stream := mkStream {
  incoming : list (pyresult bytes);
  sent : list bytes;
  broken : bool;
  aclose_calls : nat
}.

Definition receive_some (n : Z) (s : stream) : pyresult bytes * stream :=
  match incoming s with
  | [] => (Ok [], s)
  | r :: rest => (r, mkStream rest (sent s) (broken s) (aclose_calls s))
  end.

Definition send_all (data : bytes) (s : stream) : option exn * stream :=
  if broken s then (Some BrokenStreamError, s)
  else (None,
        mkStream (incoming s) (sent s ++ [data]) (broken s) (aclose_calls s)).

Definition aclose (s : stream) : option exn * stream :=
  (if broken s then Some BrokenStreamError else None,
   mkStream (incoming s) (sent s) (broken s) (Datatypes.S (aclose_calls s))).

#[global] Instance engine_WSConnection : WSConnection engine := {
  wsproto_client := client;
  wsproto_closed := closed;
  wsproto_accept := fun ev => record (Accept ev);
  wsproto_close := close_frame;
  wsproto_ping := fun payload => record (Ping payload);
  wsproto_send_data := fun message => record (SendData message);
  wsproto_receive_bytes := fun data => record (ReceiveBytes data);
  wsproto_events := next_event;
  wsproto_bytes_to_send := bytes_to_send
}.

#[global] Instance stream_SocketStream : SocketStream stream := {
  stream_receive_some := receive_some;
  stream_send_all := send_all;
  stream_aclose := aclose
}.

Definition fresh_engine (is_client : bool) : engine :=
  mkEngine is_client false [] [] [].

Definition fresh_stream : stream := mkStream [] [] false 0.

(** A connection as the dialer ([is_client = true]) or the listener builds
    it, the first of the process. *)
Definition connection (is_client : bool)
    : WebSocketConnection engine stream :=
  fst (__init__ fresh_stream (fresh_engine is_client) 0).

(** The client after a local [close(1000, "bye")]. *)
Definition locally_closed : WebSocketConnection engine stream :=
  state_of (close wsproto_CloseReason 1000 (Some "bye") (connection true)).

(** A connection after the peer's close frame was dispatched. *)
Definition peer_closed (is_client : bool)
    : WebSocketConnection engine stream :=
  match
    _handle_event wsproto_CloseReason 1
      (wsevents.ConnectionClosed 1001 (Some "going away"))
      (connection is_client)
  with
  | Some outcome => state_of outcome
  | None => connection is_client
  end.

(** A server with two consumers suspended in [get_message]. *)
Definition two_waiting : WebSocketConnection engine stream :=
  state_of (get_message (state_of (get_message (connection false)))).

End Script.

(** * Properties *)

(** ** CloseReason *)

Lemma IntEnum_call_raises (e : IntEnum.t) (value : Z) (x : exn) :
  IntEnum.call e value = Err x -> x = ValueError.
Proof.
  induction e as [|[n v] rest IH]; simpl.
  - intros H. inversion H. reflexivity.
  - destruct (Z.eqb v value); [discriminate | exact IH].
Qed.

Lemma IntEnum_call_value (e : IntEnum.t) (value : Z) (m : string * Z) :
  IntEnum.call e value = Ok m -> In m e /\ IntEnum.value m = value.
Proof.
  induction e as [|[n v] rest IH]; simpl.
  - discriminate.
  - destruct (Z.eqb v value) eqn:E.
    + intros H. inversion H; subst. apply Z.eqb_eq in E. split; auto.
    + intros H. apply IH in H. tauto.
Qed.

(** The constructor returns, with the name chosen as its [try] decides. *)
Lemma CloseReason_init_ok (e : IntEnum.t) (code : Z) (reason : option string) :
  CloseReason.__init__ e code reason =
  Ok (CloseReason.mk code
        (match IntEnum.name_of e code with
         | Some canonical => canonical
         | None => CloseReason.range_name code
         end)
        reason).
Proof.
  unfold CloseReason.__init__, IntEnum.name_of.
  destruct (IntEnum.call e code) as [m|x] eqn:E; simpl.
  - reflexivity.
  - apply IntEnum_call_raises in E. subst x. reflexivity.
Qed.

Lemma IntEnum_within_undefined (lo hi : Z) (e : IntEnum.t) (value : Z) :
  IntEnum.values_within lo hi e = true ->
  (value < lo \/ hi < value)%Z ->
  IntEnum.name_of e value = None.
Proof.
  intros Hin Hout. unfold IntEnum.name_of.
  destruct (IntEnum.call e value) as [m|x] eqn:E; [|reflexivity].
  exfalso. apply IntEnum_call_value in E. destruct E as [Hm Hv].
  unfold IntEnum.values_within in Hin. rewrite forallb_forall in Hin.
  specialize (Hin m Hm). unfold IntEnum.value in Hv.
  apply andb_true_iff in Hin. destruct Hin as [H1 H2].
  apply Z.leb_le in H1, H2. lia.
Qed.

(** C4: for every integer code the constructor names the code with the
    framing engine's canonical name when the engine's enumeration defines
    the code, and otherwise by range: RFC_RESERVED for 1000-2999,
    IANA_RESERVED for 3000-3999, PRIVATE_RESERVED for 4000-4999,
    INVALID_CODE for the rest.  With an engine that names 1000
    NORMAL_CLOSURE and defines codes within 1000-1015 only, 1000 is
    NORMAL_CLOSURE, 3500 IANA_RESERVED, 4500 PRIVATE_RESERVED and 70000
    INVALID_CODE. *)
Theorem CloseReason_name_by_code (e : IntEnum.t)
    (Hnormal : IntEnum.name_of e 1000 = Some "NORMAL_CLOSURE")
    (Hrfc : IntEnum.values_within 1000 1015 e = true) :
  (forall (code : Z) (reason : option string),
      exists obj,
        CloseReason.__init__ e code reason = Ok obj /\
        CloseReason.name obj =
          match IntEnum.name_of e code with
          | Some canonical => canonical
          | None =>
              if (1000 <=? code)%Z && (code <=? 2999)%Z then "RFC_RESERVED"
              else if (3000 <=? code)%Z && (code <=? 3999)%Z
                   then "IANA_RESERVED"
              else if (4000 <=? code)%Z && (code <=? 4999)%Z
                   then "PRIVATE_RESERVED"
              else "INVALID_CODE"
          end) /\
  (forall reason,
      option_map CloseReason.name
        (match CloseReason.__init__ e 1000 reason with
         | Ok obj => Some obj | Err _ => None end) = Some "NORMAL_CLOSURE") /\
  (forall reason,
      option_map CloseReason.name
        (match CloseReason.__init__ e 3500 reason with
         | Ok obj => Some obj | Err _ => None end) = Some "IANA_RESERVED") /\
  (forall reason,
      option_map CloseReason.name
        (match CloseReason.__init__ e 4500 reason with
         | Ok obj => Some obj | Err _ => None end) = Some "PRIVATE_RESERVED") /\
  (forall reason,
      option_map CloseReason.name
        (match CloseReason.__init__ e 70000 reason with
         | Ok obj => Some obj | Err _ => None end) = Some "INVALID_CODE").
Proof.
  assert (Hout : forall v, (1015 < v)%Z -> IntEnum.name_of e v = None).
  { intros v Hv. apply (IntEnum_within_undefined 1000 1015); [exact Hrfc | lia]. }
  split; [|repeat split]; intros.
  - eexists. split; [apply CloseReason_init_ok | reflexivity].
  - rewrite CloseReason_init_ok, Hnormal. reflexivity.
  - rewrite CloseReason_init_ok, Hout by lia. reflexivity.
  - rewrite CloseReason_init_ok, Hout by lia. reflexivity.
  - rewrite CloseReason_init_ok, Hout by lia. reflexivity.
Qed.

Lemma CloseReason_name_by_code_wsproto :
  IntEnum.name_of wsproto_CloseReason 1000 = Some "NORMAL_CLOSURE" /\
  IntEnum.values_within 1000 1015 wsproto_CloseReason = true /\
  option_map CloseReason.name
    (match CloseReason.__init__ wsproto_CloseReason 3500 (Some "bye") with
     | Ok obj => Some obj | Err _ => None end) = Some "IANA_RESERVED".
Proof.
  split; [reflexivity | split; [reflexivity |]].
  apply (CloseReason_name_by_code wsproto_CloseReason);
    reflexivity.
Defined.

(** C10: the constructor is total over integer codes and reasons: it never
    raises, [code] and [reason] return the arguments unchanged, and [name]
    is the engine's canonical name of the code or one of the four range
    names. *)
Theorem CloseReason_init_total (e : IntEnum.t) (code : Z)
    (reason : option string) :
  exists obj,
    CloseReason.__init__ e code reason = Ok obj /\
    CloseReason.code obj = code /\
    CloseReason.reason obj = reason /\
    (IntEnum.name_of e code = Some (CloseReason.name obj) \/
     In (CloseReason.name obj)
        ["RFC_RESERVED"; "IANA_RESERVED"; "PRIVATE_RESERVED";
         "INVALID_CODE"]).
Proof.
  eexists. split; [apply CloseReason_init_ok|].
  split; [reflexivity|]. split; [reflexivity|].
  unfold CloseReason.name; simpl.
  destruct (IntEnum.name_of e code) as [canonical|]; [left; reflexivity|].
  right. unfold CloseReason.range_name.
  destruct ((1000 <=? code)%Z && (code <=? 2999)%Z); [simpl; auto|].
  destruct ((3000 <=? code)%Z && (code <=? 3999)%Z); [simpl; auto|].
  destruct ((4000 <=? code)%Z && (code <=? 4999)%Z); simpl; auto.
Qed.

(** ** WebSocketConnection *)

Section ConnectionProperties.

Context {W Stream : Type}.
Context {engine : WSConnection W} {transport : SocketStream Stream}.
Variable enum : IntEnum.t.

(** C8: a freshly constructed connection has the data-pending signal raised
    exactly when it is in the client role: raised on a client, not raised
    on a server. *)
Theorem init_data_pending_iff_client (stream : Stream) (wsproto : W)
    (counter : nat) :
  _data_pending (fst (__init__ stream wsproto counter)) =
    wsproto_client wsproto /\
  is_client (fst (__init__ stream wsproto counter)) =
    wsproto_client wsproto /\
  is_server (fst (__init__ stream wsproto counter)) =
    negb (wsproto_client wsproto).
Proof.
  unfold __init__, is_client, is_server; simpl.
  destruct (wsproto_client wsproto) eqn:E; simpl; rewrite ?E; auto.
Qed.

(** C2: in every state whose close-reason is set, [send_message],
    [get_message], [ping] and [close] raise [ConnectionClosed] with that
    very reference, and leave the instance as it was. *)
Theorem api_raises_once_closed (self : WebSocketConnection W Stream) (r : addr)
    (Hset : _close_reason self = Some r)
    (message payload : pydata) (code : Z) (reason : option string) :
  send_message message self = Raise (ConnectionClosed (Some r)) self /\
  get_message self = Raise (ConnectionClosed (Some r)) self /\
  ping payload self = Raise (ConnectionClosed (Some r)) self /\
  close enum code reason self = Raise (ConnectionClosed (Some r)) self.
Proof.
  unfold send_message, get_message, ping, close.
  rewrite Hset; simpl. repeat split.
Qed.

(** C5, amended: called with no close-reason set, [close(code, reason)]
    first hands the close to the framing engine.  When the engine's call
    returns, [close] stores as close-reason a new [CloseReason] built from
    the given code and reason, raises data-pending and stands at the wait
    for the closed signal; the other attributes are untouched, and a second
    call raises [ConnectionClosed] with the stored reason.  When the
    engine's call raises, the exception leaves [close]: no [CloseReason] is
    built, the close-reason stays unset and data-pending is not raised. *)
Theorem close_records_local_reason (self : WebSocketConnection W Stream)
    (code : Z) (reason : option string)
    (Hopen : _close_reason self = None) :
  match fst (wsproto_close code reason (_wsproto self)) with
  | None =>
      exists self' r obj,
        close enum code reason self = Await OnClosed self' /\
        _wsproto self' = snd (wsproto_close code reason (_wsproto self)) /\
        _close_reason self' = Some r /\
        nth_error (heap self) r = None /\
        deref self' (Some r) = Some obj /\
        CloseReason.__init__ enum code reason = Ok obj /\
        CloseReason.code obj = code /\
        CloseReason.reason obj = reason /\
        _data_pending self' = true /\
        (_closed self' = _closed self /\
         _message_queue self' = _message_queue self /\
         _stream self' = _stream self /\
         _data_sent self' = _data_sent self /\
         _reader_running self' = _reader_running self /\
         _writer_running self' = _writer_running self) /\
        forall code' reason',
          close enum code' reason' self' =
            Raise (ConnectionClosed (Some r)) self'
  | Some e =>
      exists self',
        close enum code reason self = Raise e self' /\
        _wsproto self' = snd (wsproto_close code reason (_wsproto self)) /\
        _close_reason self' = None /\
        heap self' = heap self /\
        _data_pending self' = _data_pending self /\
        _closed self' = _closed self
  end.
Proof.
  unfold close. rewrite Hopen; simpl.
  destruct (wsproto_close code reason (_wsproto self)) as [[e|] w]; simpl.
  - eexists. split; [reflexivity|]. simpl. repeat split. exact Hopen.
  - rewrite CloseReason_init_ok; simpl.
    do 3 eexists. split; [reflexivity|]. simpl.
    split; [reflexivity|]. split; [reflexivity|].
    split; [apply nth_error_None; apply Nat.le_refl|].
    split.
    { rewrite nth_error_app2 by apply Nat.le_refl.
      rewrite Nat.sub_diag. reflexivity. }
    split; [reflexivity|].
    repeat split.
Qed.

(** The drain loop ends once it has served every suspended consumer. *)
Lemma close_message_queue_loop_drains (fuel : nat) (exc : exn) :
  forall self : WebSocketConnection W Stream,
    Queue.get_wait (_message_queue self) < fuel ->
    _close_message_queue_loop fuel exc self =
      Some (Return tt
              (set_message_queue
                 (Queue.mk 0
                    (Queue.taken (_message_queue self) ++
                     repeat (Queue.Exc exc)
                       (Queue.get_wait (_message_queue self))))
                 self)).
Proof.
  induction fuel as [|fuel IH]; intros self Hfuel; [inversion Hfuel|].
  simpl. unfold Queue.put_nowait.
  destruct self as [h cl cr ccr id q st w bm sm dp ds pr rr wr].
  destruct q as [n taken]. simpl in *.
  destruct n as [|n]; simpl.
  - rewrite app_nil_r. reflexivity.
  - rewrite IH by (simpl; apply Nat.succ_lt_mono; exact Hfuel).
    simpl. unfold set_message_queue; simpl.
    rewrite <- app_assoc. reflexivity.
Qed.

(** C6: on a connection-closed event the handler sets the close-reason from
    the event's code and reason only when none was set (an earlier one is
    kept), hands the [ConnectionClosed] sentinel to every consumer suspended
    on the message channel, sets writer-running to false and raises
    data-pending. *)
Theorem handle_connection_closed_event (fuel : nat)
    (self : WebSocketConnection W Stream)
    (code : Z) (reason : option string)
    (Hfuel : Queue.get_wait (_message_queue self) < fuel) :
  exists self',
    _handle_event enum fuel (wsevents.ConnectionClosed code reason) self =
      Some (Return tt self') /\
    match _close_reason self with
    | Some r => _close_reason self' = Some r /\ heap self' = heap self
    | None =>
        exists r obj,
          _close_reason self' = Some r /\
          nth_error (heap self) r = None /\
          deref self' (Some r) = Some obj /\
          CloseReason.__init__ enum code reason = Ok obj /\
          CloseReason.code obj = code /\
          CloseReason.reason obj = reason
    end /\
    _message_queue self' =
      Queue.mk 0
        (Queue.taken (_message_queue self) ++
         repeat (Queue.Exc (ConnectionClosed (_close_reason self')))
           (Queue.get_wait (_message_queue self))) /\
    _writer_running self' = false /\
    _data_pending self' = true.
Proof.
  unfold _handle_event, _close_message_queue.
  destruct (_close_reason self) as [r|] eqn:Hr; simpl.
  - rewrite close_message_queue_loop_drains by exact Hfuel.
    eexists. split; [reflexivity|]. simpl. rewrite Hr. repeat split.
  - rewrite CloseReason_init_ok; simpl.
    rewrite close_message_queue_loop_drains by exact Hfuel.
    eexists. split; [reflexivity|]. simpl.
    split; [|repeat split].
    do 2 eexists. split; [reflexivity|].
    split; [apply nth_error_None; apply Nat.le_refl|].
    split.
    { rewrite nth_error_app2 by apply Nat.le_refl.
      rewrite Nat.sub_diag. reflexivity. }
    split; [reflexivity|]. split; reflexivity.
Qed.

(** C7: once the writer loop has ended, the transport-close procedure runs
    exactly in the server role: it sets both liveness flags to false, raises
    data-pending, closes the transport and, the close having returned or
    raised [BrokenStreamError], raises the closed signal; a client-role
    writer returns with the instance, transport included, as it was. *)
Theorem writer_exit_closes_iff_server (self : WebSocketConnection W Stream)
    (Hexit : _writer_running self = false) :
  (is_server self = true ->
     _writer_task self = _close_stream self /\
     _reader_running (state_of (_writer_task self)) = false /\
     _writer_running (state_of (_writer_task self)) = false /\
     _data_pending (state_of (_writer_task self)) = true /\
     _stream (state_of (_writer_task self)) =
       snd (stream_aclose (_stream self)) /\
     match fst (stream_aclose (_stream self)) with
     | None | Some BrokenStreamError =>
         exists self',
           _writer_task self = Return tt self' /\ _closed self' = true
     | Some e =>
         exists self',
           _writer_task self = Raise e self' /\ _closed self' = _closed self
     end) /\
  (is_server self = false -> _writer_task self = Return tt self).
Proof.
  unfold _writer_task, _writer_task_exit. rewrite Hexit.
  split; intros Hrole; rewrite Hrole; [|reflexivity].
  unfold _close_stream; simpl.
  destruct (stream_aclose (_stream self)) as [raised stream'] eqn:Hclose.
  simpl.
  destruct raised as [e|]; [destruct e|]; simpl;
    repeat split; eexists; split; reflexivity.
Qed.








(** C1 (what the code does): after a zero-length read on a connection whose
    engine has seen no close, the [CloseReason] with code 1006 and reason
    "TCP connection aborted" is stored in the attribute [_close_creason];
    the close-reason stays unset, the transport-close procedure runs, and
    [get_message] afterwards raises nothing but waits on the channel. *)
Theorem zero_read_leaves_close_reason_unset (fuel : nat)
    (self : WebSocketConnection W Stream) (stream' : Stream)
    (Hread : stream_receive_some RECEIVE_BYTES (_stream self) =
               (Ok [], stream'))
    (Hengine : wsproto_closed (_wsproto self) = false)
    (Hunset : _close_reason self = None)
    (Habnormal : IntEnum.getattr enum "ABNORMAL_CLOSURE" =
                   Ok ("ABNORMAL_CLOSURE", 1006%Z)) :
  exists outcome self' r obj,
    _reader_task_resume enum fuel self = Some outcome /\
    state_of outcome = self' /\
    _close_reason self' = None /\
    closed self' = None /\
    _close_creason self' = Some r /\
    deref self' (Some r) = Some obj /\
    CloseReason.code obj = 1006%Z /\
    CloseReason.reason obj = Some "TCP connection aborted" /\
    _reader_running self' = false /\
    (exists waiting, get_message self' = Await OnMessageQueueGet waiting).
Proof.
  unfold _reader_task_resume. rewrite Hread. simpl.
  unfold _reader_task_abnormal. simpl. rewrite Hengine, Habnormal. simpl.
  rewrite CloseReason_init_ok. simpl.
  unfold _close_stream; simpl.
  destruct (stream_aclose stream') as [raised stream''].
  assert (Hheap : nth_error (heap self ++
            [CloseReason.mk 1006
               match IntEnum.name_of enum 1006 with
               | Some canonical => canonical
               | None => CloseReason.range_name 1006
               end (Some "TCP connection aborted")]) (List.length (heap self))
          = Some (CloseReason.mk 1006
               match IntEnum.name_of enum 1006 with
               | Some canonical => canonical
               | None => CloseReason.range_name 1006
               end (Some "TCP connection aborted"))).
  { rewrite nth_error_app2 by apply Nat.le_refl.
    rewrite Nat.sub_diag. reflexivity. }
  destruct raised as [e|]; [destruct e|];
    (do 4 eexists; split; [reflexivity|]; simpl;
     split; [reflexivity|]; split; [exact Hunset|];
     split; [exact Hunset|]; split; [reflexivity|];
     split; [exact Hheap|];
     split; [reflexivity|]; split; [reflexivity|];
     split; [reflexivity|];
     unfold get_message; simpl; rewrite Hunset; simpl;
     eexists; reflexivity).
Qed.

End ConnectionProperties.

(** ** The theorems at concrete connections *)

Lemma api_raises_once_closed_locally_closed :
  _close_reason Script.locally_closed = Some 0 /\
  get_message Script.locally_closed =
    Raise (ConnectionClosed (Some 0)) Script.locally_closed /\
  send_message (PyStr "hello") Script.locally_closed =
    Raise (ConnectionClosed (Some 0)) Script.locally_closed.
Proof.
  split; [reflexivity|].
  destruct (api_raises_once_closed wsproto_CloseReason Script.locally_closed 0
              eq_refl (PyStr "hello") (PyBytes []) 1000%Z None)
    as [Hsend [Hget _]].
  split; [exact Hget | exact Hsend].
Defined.

Lemma close_records_local_reason_client :
  _close_reason (Script.connection true) = None /\
  exists self' r obj,
    close wsproto_CloseReason 1000 (Some "bye") (Script.connection true) =
      Await OnClosed self' /\
    _close_reason self' = Some r /\
    deref self' (Some r) = Some obj /\
    CloseReason.code obj = 1000%Z /\
    CloseReason.reason obj = Some "bye" /\
    _data_pending self' = true.
Proof.
  split; [reflexivity|].
  pose proof (close_records_local_reason wsproto_CloseReason
                (Script.connection true) 1000%Z (Some "bye") eq_refl) as H.
  cbn in H.
  destruct H
    as [self' [r [obj [H1 [_ [H3 [_ [H5 [_ [H7 [H8 [H9 _]]]]]]]]]]]].
  exists self', r, obj. repeat split; assumption.
Defined.

(** C5 without the condition on the engine fails at a code the engine
    cannot encode: [close(70000)] on a fresh client raises [struct.error]
    out of the engine's call, stores no close-reason, raises no
    data-pending and does not wait for the closed signal. *)
Lemma close_unencodable_code_raises :
  _close_reason (Script.connection true) = None /\
  (exists e self',
      close wsproto_CloseReason 70000 None (Script.connection true) =
        Raise e self' /\
      e = struct_error "'H' format requires 0 <= number <= 65535" /\
      _close_reason self' = None /\
      _data_pending self' = _data_pending (Script.connection true) /\
      Script.calls (_wsproto self') = []) /\
  ~ (exists self' r,
        close wsproto_CloseReason 70000 None (Script.connection true) =
          Await OnClosed self' /\
        _close_reason self' = Some r).
Proof.
  split; [reflexivity|]. split.
  - do 2 eexists. split; [reflexivity|]. repeat split.
  - intros [self' [r [H _]]]. discriminate H.
Qed.

Lemma handle_connection_closed_event_two_waiting :
  Queue.get_wait (_message_queue Script.two_waiting) < 3 /\
  exists self',
    _handle_event wsproto_CloseReason 3
      (wsevents.ConnectionClosed 1000 (Some "bye")) Script.two_waiting =
      Some (Return tt self') /\
    _writer_running self' = false /\
    _data_pending self' = true /\
    Queue.get_wait (_message_queue self') = 0.
Proof.
  split; [simpl; lia|].
  destruct (handle_connection_closed_event wsproto_CloseReason 3
              Script.two_waiting 1000%Z (Some "bye"))
    as [self' [H1 [_ [H3 [H4 H5]]]]]; [simpl; lia|].
  exists self'. rewrite H3. repeat split; assumption.
Defined.

Lemma writer_exit_closes_iff_server_peer_closed :
  _writer_running (Script.peer_closed false) = false /\
  is_server (Script.peer_closed false) = true /\
  _closed (state_of (_writer_task (Script.peer_closed false))) = true /\
  Script.aclose_calls
    (_stream (state_of (_writer_task (Script.peer_closed false)))) = 1 /\
  _writer_running (Script.peer_closed true) = false /\
  is_server (Script.peer_closed true) = false /\
  _writer_task (Script.peer_closed true) =
    Return tt (Script.peer_closed true).
Proof.
  split; [reflexivity|]. split; [reflexivity|].
  destruct (writer_exit_closes_iff_server (Script.peer_closed false) eq_refl)
    as [Hserver _].
  destruct (Hserver eq_refl) as [_ [_ [_ [_ [Hstream Hclosed]]]]].
  simpl in Hclosed. destruct Hclosed as [self' [Htask Hflag]].
  split; [rewrite Htask; exact Hflag|].
  split; [rewrite Hstream; reflexivity|].
  split; [reflexivity|]. split; [reflexivity|].
  apply (writer_exit_closes_iff_server (Script.peer_closed true) eq_refl).
  reflexivity.
Defined.


Lemma zero_read_leaves_close_reason_unset_client :
  stream_receive_some RECEIVE_BYTES (_stream (Script.connection true)) =
    (Ok [], Script.fresh_stream) /\
  wsproto_closed (_wsproto (Script.connection true)) = false /\
  _close_reason (Script.connection true) = None /\
  IntEnum.getattr wsproto_CloseReason "ABNORMAL_CLOSURE" =
    Ok ("ABNORMAL_CLOSURE", 1006%Z) /\
  exists outcome,
    _reader_task_resume wsproto_CloseReason 1 (Script.connection true) =
      Some outcome /\
    _close_reason (state_of outcome) = None /\
    _closed (state_of outcome) = true.
Proof.
  split; [reflexivity|]. split; [reflexivity|]. split; [reflexivity|].
  split; [reflexivity|].
  destruct (zero_read_leaves_close_reason_unset wsproto_CloseReason 1
              (Script.connection true) Script.fresh_stream)
    as [outcome [self' [r [obj [H1 [H2 [H3 _]]]]]]]; try reflexivity.
  exists outcome. split; [exact H1|]. rewrite H2. split; [exact H3|].
  subst self'. vm_compute in H1. injection H1 as <-. reflexivity.
Defined.

(** ** WebSocketClient *)

(** C9 (what the code does): [use_ssl] is compared with [==], so the
    integers 1 and 0, neither [bool] nor [SSLContext], build a client as
    [True] and [False] do, and no [TypeError] is raised; [True], [False] and
    an [SSLContext] give the default context, no context and that context;
    [None], a [str], [bytes] and any other integer raise [TypeError]. *)
Theorem use_ssl_compared_by_equality (host : string) (port : Z)
    (resource : string) :
  (isinstance_bool (VInt 1) = false /\
   isinstance_SSLContext (VInt 1) = false /\
   WebSocketClient.__init__ host port resource (VInt 1) =
     Ok (WebSocketClient.mk host port resource (Some ssl.default_context))) /\
  (isinstance_bool (VInt 0) = false /\
   isinstance_SSLContext (VInt 0) = false /\
   WebSocketClient.__init__ host port resource (VInt 0) =
     Ok (WebSocketClient.mk host port resource None)) /\
  WebSocketClient.__init__ host port resource (VBool true) =
    Ok (WebSocketClient.mk host port resource (Some ssl.default_context)) /\
  WebSocketClient.__init__ host port resource (VBool false) =
    Ok (WebSocketClient.mk host port resource None) /\
  (forall c,
      WebSocketClient.__init__ host port resource (VSSLContext c) =
        Ok (WebSocketClient.mk host port resource (Some c))) /\
  (forall v,
      isinstance_bool v = false ->
      isinstance_SSLContext v = false ->
      v <> VInt 1 -> v <> VInt 0 ->
      WebSocketClient.__init__ host port resource v =
        Err (TypeError "`use_ssl` argument must be bool or ssl.SSLContext")).
Proof.
  repeat split; try reflexivity.
  intros v Hb Hc H1 H0.
  destruct v as [| b | i | s | b | c]; try reflexivity; try discriminate.
  unfold WebSocketClient.__init__; simpl.
  destruct (Z.eqb i 1) eqn:E1; [apply Z.eqb_eq in E1; congruence|].
  destruct (Z.eqb i 0) eqn:E0; [apply Z.eqb_eq in E0; congruence|].
  reflexivity.
Qed.
